(** * IFC Semantic Data-Loss Analyzer: a shallow embedding of [m.py]

    The program is one Streamlit script.  Each run of the script reads the
    session state and the widgets, and either stops on the login page or
    renders the analysis page for an uploaded IFC model.  The embedding keeps
    the script's variable names: every top-level variable of the analysis
    page is a function of the model, every Python exception that the script
    can meet is a value of [PyExc], and the session is threaded explicitly
    from one run to the next. *)

From Stdlib Require Import ZArith QArith Lia Lqa DecimalString.
From stdpp Require Import base option list strings gmap.

Local Close Scope Q_scope.
Local Open Scope Z_scope.

(** ** Exceptions *)

Inductive PyExc : Type :=
  | ZeroDivisionError
  | KeyError (key : string)
  | TypeError.

Inductive Exc (A : Type) : Type :=
  | Ok (a : A)
  | Raise (e : PyExc).
Arguments Ok {A} a.
Arguments Raise {A} e.

Definition exc_bind {A B : Type} (c : Exc A) (k : A -> Exc B) : Exc B :=
  match c with
  | Ok a => k a
  | Raise e => Raise e
  end.

Notation "x <~ c ;; k" := (exc_bind c (fun x => k))
  (at level 100, c at next level, right associativity).

(** ** The model access facade (ifcopenshell), as the script uses it *)

(** [prop_set.is_a("IfcPropertySet")] inspects the class of a property
    definition; quantity sets are the other property definitions that
    [IfcRelDefinesByProperties] may relate. *)
Inductive PropertyDefinitionClass : Type :=
  | IfcPropertySet
  | IfcElementQuantity
  | IfcOtherPropertyDefinition.

Record PropertyDefinition : Type := {
  pd_class : PropertyDefinitionClass;
  pd_Name : option string
}.

(** The members of [wall.IsDefinedBy]: [definition.is_a(...)] tells the
    property relations from the type relations. *)
Inductive Relationship : Type :=
  | IfcRelDefinesByProperties (RelatingPropertyDefinition : option PropertyDefinition)
  | IfcRelDefinesByType.

(** An entity instance.  [Name] is optional in the schema ([None] when the
    file leaves it out); [IsDefinedBy] is [None] when [hasattr] fails. *)
Record Element : Type := {
  GlobalId : string;
  Name : option string;
  is_a : string;
  IsDefinedBy : option (list Relationship)
}.

(** [model.by_type(t)] *)
Definition Model : Type := string -> list Element.

Definition len {A : Type} (l : list A) : Z := Z.of_nat (length l).

(** ** Python numbers *)

(** Truth value of an [int] in a condition. *)
Definition int_truthy (n : Z) : bool := negb (n =? 0).

(** Truth value of an optional string in a condition: [None] and the empty
    string are false. *)
Definition str_truthy (s : option string) : bool :=
  match s with
  | None => false
  | Some EmptyString => false
  | Some (String _ _) => true
  end.

(** [a / b] on integers.  The script holds the binary64 number nearest to
    the quotient; the quotient is kept here as the exact rational, and so
    is its product by 100. *)
Definition truediv (a b : Z) : Exc Q :=
  if b =? 0 then Raise ZeroDivisionError
  else Ok (inject_Z a / inject_Z b)%Q.

Definition Qlt_bool (x y : Q) : bool :=
  Qnum x * QDen y <? Qnum y * QDen x.

(** ** Element classification (script lines 109-124) *)

Definition walls (model : Model) : list Element := model "IfcWall"%string.
Definition standard_walls (model : Model) : list Element := model "IfcWallStandardCase"%string.
Definition doors (model : Model) : list Element := model "IfcDoor"%string.
Definition windows (model : Model) : list Element := model "IfcWindow"%string.
Definition proxies (model : Model) : list Element := model "IfcBuildingElementProxy"%string.
Definition all_elements (model : Model) : list Element := model "IfcProduct"%string.

Definition total_elements (model : Model) : Z := len (all_elements model).
Definition total_walls (model : Model) : Z := len (walls model) + len (standard_walls model).

Record ClassificationResult : Type := {
  cr_total_elements : Z;
  cr_total_walls : Z;
  cr_doors : Z;
  cr_windows : Z;
  semantic_elements : Z;
  proxy_elements : Z;
  other_semantic : Z;
  semantic_pct : Q;
  proxy_pct : Q;
  other_pct : Q
}.

(** [(count / total) * 100 if total else 0] *)
Definition percentage (count total : Z) : Exc Q :=
  if int_truthy total then
    q <~ truediv count total ;;
    Ok (q * 100)%Q
  else Ok 0%Q.

(** Lines 118-124 on the five counts. *)
Definition classify_counts (total n_walls n_doors n_windows n_proxies : Z)
  : Exc ClassificationResult :=
  let semantic := n_walls + n_doors + n_windows in
  let proxy := n_proxies in
  let other := Z.max (total - semantic - proxy) 0 in
  s_pct <~ percentage semantic total ;;
  p_pct <~ percentage proxy total ;;
  o_pct <~ percentage other total ;;
  Ok {| cr_total_elements := total;
        cr_total_walls := n_walls;
        cr_doors := n_doors;
        cr_windows := n_windows;
        semantic_elements := semantic;
        proxy_elements := proxy;
        other_semantic := other;
        semantic_pct := s_pct;
        proxy_pct := p_pct;
        other_pct := o_pct |}.

Definition classify (model : Model) : Exc ClassificationResult :=
  classify_counts (total_elements model) (total_walls model)
    (len (doors model)) (len (windows model)) (len (proxies model)).

(** ** Severity (script lines 151-162) *)

Inductive SeverityLevel : Type := LOW | MEDIUM | HIGH | CRITICAL.

Definition severity (proxy_pct : Q) : SeverityLevel :=
  if Qle_bool proxy_pct 10 then LOW
  else if Qlt_bool proxy_pct 20 then MEDIUM
  else if Qlt_bool proxy_pct 50 then HIGH
  else CRITICAL.

(** The order LOW < MEDIUM < HIGH < CRITICAL. *)
Definition severity_rank (s : SeverityLevel) : nat :=
  match s with
  | LOW => 0
  | MEDIUM => 1
  | HIGH => 2
  | CRITICAL => 3
  end.

Definition severity_le (a b : SeverityLevel) : Prop :=
  (severity_rank a <= severity_rank b)%nat.

(** ** Element-level tracing of the proxies (script lines 170-181) *)

Record ProxyRow : Type := {
  proxy_row_Name : string;
  proxy_row_GlobalId : string;
  proxy_row_IFC_Type : string;
  proxy_row_Issue : string
}.

(** [e.Name if e.Name else "Unnamed"] *)
Definition name_or_unnamed (e : Element) : string :=
  if str_truthy (Name e) then
    match Name e with
    | Some s => s
    | None => "Unnamed"
    end
  else "Unnamed".

Definition proxy_row (proxy : Element) : ProxyRow :=
  {| proxy_row_Name := name_or_unnamed proxy;
     proxy_row_GlobalId := GlobalId proxy;
     proxy_row_IFC_Type := is_a proxy;
     proxy_row_Issue := "Semantic meaning lost (generic proxy)" |}.

(** The table is built only when the list of proxies is not empty; [None]
    stands for the branch that writes "No proxy elements detected." *)
Definition proxy_data (model : Model) : option (list ProxyRow) :=
  match proxies model with
  | [] => None
  | _ :: _ =>
      Some (fold_left (fun rows proxy => rows ++ [proxy_row proxy]) (proxies model) [])
  end.

(** ** Walls missing Pset_WallCommon (script lines 186-214) *)

(** [a == b] where [a] may be [None]. *)
Definition py_eq_str (a : option string) (b : string) : bool :=
  match a with
  | Some s => String.eqb s b
  | None => false
  end.

(** One iteration of the inner loop over [wall.IsDefinedBy]: the new value
    of the flag [has_pset]. *)
Definition definition_step (has_pset : bool) (definition : Relationship) : bool :=
  match definition with
  | IfcRelDefinesByProperties prop_set =>
      match prop_set with
      | Some ps =>
          match pd_class ps with
          | IfcPropertySet =>
              if py_eq_str (pd_Name ps) "Pset_WallCommon" then true else has_pset
          | _ => has_pset
          end
      | None => has_pset
      end
  | IfcRelDefinesByType => has_pset
  end.

(** The flag after the body of the outer loop, for one wall. *)
Definition has_pset (wall : Element) : bool :=
  match IsDefinedBy wall with
  | Some definitions => fold_left definition_step definitions false
  | None => false
  end.

Definition walls_objects (model : Model) : list Element := model "IfcWall"%string.

Definition wall_step (missing : list Element) (wall : Element) : list Element :=
  if negb (has_pset wall) then missing ++ [wall] else missing.

Definition walls_missing_pset (model : Model) : list Element :=
  fold_left wall_step (walls_objects model) [].

Definition missing_pset_count (model : Model) : Z := len (walls_missing_pset model).

Record PsetRow : Type := {
  pset_row_Wall_Name : string;
  pset_row_GlobalId : string;
  pset_row_Issue : string
}.

Definition pset_row (wall : Element) : PsetRow :=
  {| pset_row_Wall_Name := name_or_unnamed wall;
     pset_row_GlobalId := GlobalId wall;
     pset_row_Issue := "Pset_WallCommon missing" |}.

(** [None] stands for the branch "All walls contain Pset_WallCommon." *)
Definition pset_data (model : Model) : option (list PsetRow) :=
  if missing_pset_count model =? 0 then None
  else Some (fold_left (fun rows wall => rows ++ [pset_row wall]) (walls_missing_pset model) []).

(** ** The check on entity instances whose attribute may not be readable *)

(** [Element] above is an entity instance whose collection of relations is
    either absent or a sequence.  The script reads [wall.IsDefinedBy] with
    no such guarantee and without any exception handler; the three things
    the read can give are told apart here. *)
Module Raw.

Inductive InverseAttribute : Type :=
  | attr_missing
  | attr_none
  | attr_tuple (definitions : list Relationship).

Record EntityInstance : Type := {
  GlobalId : string;
  Name : option string;
  is_a : string;
  IsDefinedBy : InverseAttribute
}.

(** Lines 189-196 for one wall.  [hasattr] is false for a missing
    attribute only; [for definition in None] raises TypeError. *)
Definition has_pset (wall : EntityInstance) : Exc bool :=
  match IsDefinedBy wall with
  | attr_missing => Ok false
  | attr_none => Raise TypeError
  | attr_tuple definitions => Ok (fold_left definition_step definitions false)
  end.

(** Lines 188-198: one iteration of the outer loop; an exception ends the
    loop, and the script. *)
Definition wall_step (missing : Exc (list EntityInstance)) (wall : EntityInstance)
  : Exc (list EntityInstance) :=
  acc <~ missing ;;
  flag <~ has_pset wall ;;
  Ok (if negb flag then acc ++ [wall] else acc).

Definition walls_missing_pset (walls_objects : list EntityInstance)
  : Exc (list EntityInstance) :=
  fold_left wall_step walls_objects (Ok []).

(** The instance as an [Element], when its collection can be iterated or
    is absent. *)
Definition readable (wall : EntityInstance) : option Element :=
  match IsDefinedBy wall with
  | attr_missing =>
      Some (Build_Element (GlobalId wall) (Name wall) (is_a wall) None)
  | attr_none => None
  | attr_tuple definitions =>
      Some (Build_Element (GlobalId wall) (Name wall) (is_a wall) (Some definitions))
  end.


End Raw.

#[global] Instance attr_none_dec (wall : Raw.EntityInstance) :
  Decision (Raw.IsDefinedBy wall = Raw.attr_none).
Proof.
  destruct (Raw.IsDefinedBy wall); [right | left | right]; congruence.
Defined.

(** ** The analysis of an uploaded model (script lines 103-214) *)

Record Analysis : Type := {
  an_classification : ClassificationResult;
  an_severity : SeverityLevel;
  an_proxy_data : option (list ProxyRow);
  an_walls_missing_pset : list Element;
  an_missing_pset_count : Z;
  an_pset_data : option (list PsetRow)
}.

Definition analyze (model : Model) : Exc Analysis :=
  c <~ classify model ;;
  Ok {| an_classification := c;
        an_severity := severity (proxy_pct c);
        an_proxy_data := proxy_data model;
        an_walls_missing_pset := walls_missing_pset model;
        an_missing_pset_count := missing_pset_count model;
        an_pset_data := pset_data model |}.

(** ** The session gate (script lines 9-92) *)

Definition sentinel : string := "Select an option".

(** What Streamlit keeps between runs: a key is absent until the script
    stores it. *)
Record RawSession : Type := {
  raw_logged_in : option bool;
  raw_user_context : option (gmap string string)
}.

(** The session after lines 9-13. *)
Record SessionState : Type := {
  logged_in : bool;
  user_context : gmap string string
}.

Definition initialise (raw : RawSession) : SessionState :=
  {| logged_in := default false (raw_logged_in raw);
     user_context := default ∅ (raw_user_context raw) |}.

Definition stored (s : SessionState) : RawSession :=
  {| raw_logged_in := Some (logged_in s);
     raw_user_context := Some (user_context s) |}.

Definition fresh_session : RawSession :=
  {| raw_logged_in := None; raw_user_context := None |}.

(** The widgets of one run: what the user typed, chose, clicked and
    uploaded. *)
Record Widgets : Type := {
  name : string;
  role : string;
  domain : string;
  purpose : string;
  continue_clicked : bool;
  uploaded_file : option Model
}.

(** [d[k]] *)
Definition dict_get (d : gmap string string) (k : string) : Exc string :=
  match d !! k with
  | Some v => Ok v
  | None => Raise (KeyError k)
  end.

Record Page : Type := {
  page_context : gmap string string;
  page_role : string;
  page_domain : string;
  page_purpose : string;
  page_analysis : option Analysis
}.

(** Lines 86-214: everything below the login block. *)
Definition analysis_page (context : gmap string string) (upload : option Model) : Exc Page :=
  r <~ dict_get context "role" ;;
  d <~ dict_get context "domain" ;;
  p <~ dict_get context "purpose" ;;
  match upload with
  | Some model =>
      a <~ analyze model ;;
      Ok {| page_context := context; page_role := r; page_domain := d;
            page_purpose := p; page_analysis := Some a |}
  | None =>
      Ok {| page_context := context; page_role := r; page_domain := d;
            page_purpose := p; page_analysis := None |}
  end.

Inductive Outcome : Type :=
  | LoginStopped (error : option string)
  | Rerun
  | AnalysisShown (page : Page)
  | Crashed (e : PyExc).

(** One run of the script. *)
Definition run (raw : RawSession) (w : Widgets) : RawSession * Outcome :=
  let s := initialise raw in
  if negb (logged_in s) then
    if continue_clicked w then
      if String.eqb (role w) sentinel
         || String.eqb (domain w) sentinel
         || String.eqb (purpose w) sentinel
      then (stored s, LoginStopped (Some "Please select all fields."%string))
      else
        let context : gmap string string :=
          <["purpose"%string := purpose w]>
            (<["domain"%string := domain w]>
               (<["role"%string := role w]>
                  (<["name"%string := name w]> ∅))) in
        (stored {| logged_in := true; user_context := context |}, Rerun)
    else (stored s, LoginStopped None)
  else
    match analysis_page (user_context s) (uploaded_file w) with
    | Ok page => (stored s, AnalysisShown page)
    | Raise e => (stored s, Crashed e)
    end.

(** The session after a sequence of runs, starting from a new session. *)
Definition session_after (ws : list Widgets) : RawSession :=
  fold_left (fun raw w => fst (run raw w)) ws fresh_session.

(** The context holds a role, a domain and a purpose, none the sentinel. *)
Definition complete_context (context : gmap string string) : Prop :=
  ∃ r d p : string,
    context !! "role"%string = Some r ∧ r ≠ sentinel ∧
    context !! "domain"%string = Some d ∧ d ≠ sentinel ∧
    context !! "purpose"%string = Some p ∧ p ≠ sentinel.

(** ** The element-wise classification table (script lines 141-145) *)

(** The two columns of [df_elements], row by row. *)
Definition df_elements (model : Model) (c : ClassificationResult) : list (string * Z) :=
  [("Walls", total_walls model);
   ("Doors", len (doors model));
   ("Windows", len (windows model));
   ("Proxy Elements", proxy_elements c);
   ("Other Semantic Elements", other_semantic c)]%string.

(** ** The PDF report (script lines 219-272) *)

(** The calls made on the [FPDF] object, in order. *)
Inductive PdfOp : Type :=
  | pdf_add_page
  | pdf_set_font (family style : string) (size : Z)
  | pdf_cell (w h : Z) (txt : string) (newline : bool) (align : string)
  | pdf_ln (h : Z)
  | pdf_multi_cell (w h : Z) (txt : string)
  | pdf_output (file_path : string).

(** [str(n)] for an integer. *)
Definition str_int (n : Z) : string := NilZero.string_of_int (Z.to_int n).

(** The severity as the string the script stores. *)
Definition severity_name (s : SeverityLevel) : string :=
  match s with
  | LOW => "LOW"
  | MEDIUM => "MEDIUM"
  | HIGH => "HIGH"
  | CRITICAL => "CRITICAL"
  end.

(** [context.get(k, 'N/A')] *)
Definition context_get (context : gmap string string) (k : string) : string :=
  default "N/A"%string (context !! k).

Section Pdf.

(** The conversion of a number by the format [.2f], which belongs to the
    language and not to the script. *)
Variable format_2f : Q -> string.

(** Lines 220-231: title and user context. *)
Definition pdf_header (context : gmap string string) : list PdfOp :=
  [pdf_add_page;
   pdf_set_font "Arial" "B" 16;
   pdf_cell 0 10 "IFC Semantic Analysis Report" true "C";
   pdf_ln 10;
   pdf_set_font "Arial" "" 12;
   pdf_multi_cell 0 8 ("User Name: " ++ context_get context "name");
   pdf_multi_cell 0 8 ("Role: " ++ context_get context "role");
   pdf_multi_cell 0 8 ("Domain: " ++ context_get context "domain");
   pdf_multi_cell 0 8 ("Purpose: " ++ context_get context "purpose");
   pdf_ln 5]%string.

(** Lines 233-242: the summary metrics. *)
Definition pdf_summary (c : ClassificationResult) (sev : SeverityLevel) : list PdfOp :=
  [pdf_multi_cell 0 8 "Summary Metrics:";
   pdf_multi_cell 0 8 ("Total Elements: " ++ str_int (cr_total_elements c));
   pdf_multi_cell 0 8 ("Semantic Elements: " ++ str_int (semantic_elements c));
   pdf_multi_cell 0 8 ("Proxy Elements: " ++ str_int (proxy_elements c));
   pdf_multi_cell 0 8 ("Other Semantic Elements: " ++ str_int (other_semantic c));
   pdf_multi_cell 0 8 ("Semantic %: " ++ format_2f (semantic_pct c) ++ "%");
   pdf_multi_cell 0 8 ("Proxy %: " ++ format_2f (proxy_pct c) ++ "%");
   pdf_multi_cell 0 8 ("Other %: " ++ format_2f (other_pct c) ++ "%");
   pdf_multi_cell 0 8 ("Severity Level: " ++ severity_name sev);
   pdf_ln 5]%string.

(** Line 248: the entry of the proxy at position [i] of [enumerate]. *)
Definition pdf_proxy_line (i : nat) (proxy : Element) : PdfOp :=
  let name :=
    if str_truthy (Name proxy) then
      match Name proxy with
      | Some s => s
      | None => "Unnamed"
      end
    else "Unnamed" in
  pdf_multi_cell 0 8
    (str_int (Z.of_nat i + 1) ++ ". Name: " ++ name ++ " | Type: " ++ is_a proxy
     ++ " | GlobalId: " ++ GlobalId proxy
     ++ " | Issue: Semantic meaning lost (generic proxy)")%string.

(** Lines 244-250. *)
Definition pdf_proxy_detail (proxies : list Element) : list PdfOp :=
  match proxies with
  | [] => []
  | _ :: _ =>
      pdf_multi_cell 0 8 "Proxy Elements Detail:" :: imap pdf_proxy_line proxies ++ [pdf_ln 5]
  end.

(** Line 255: the entry of the wall at position [i] of [enumerate]. *)
Definition pdf_wall_line (i : nat) (wall : Element) : PdfOp :=
  pdf_multi_cell 0 8
    (str_int (Z.of_nat i + 1) ++ ". Wall Name: "
     ++ (if str_truthy (Name wall) then
           match Name wall with
           | Some s => s
           | None => "Unnamed"
           end
         else "Unnamed")
     ++ " | GlobalId: " ++ GlobalId wall ++ " | Issue: Pset_WallCommon missing")%string.

(** Lines 252-256. *)
Definition pdf_missing_walls (count : Z) (missing : list Element) : list PdfOp :=
  if 0 <? count then
    pdf_multi_cell 0 8 "Walls Missing Pset_WallCommon:" :: imap pdf_wall_line missing
  else [].

(** [generate_pdf(file_path)]: the calls on the document and the returned
    path.  The variables of the analysis that the function reads are its
    arguments here. *)
Definition generate_pdf (context : gmap string string) (model : Model) (a : Analysis)
    (file_path : string) : list PdfOp * string :=
  (pdf_header context
   ++ pdf_summary (an_classification a) (an_severity a)
   ++ pdf_proxy_detail (proxies model)
   ++ pdf_missing_walls (an_missing_pset_count a) (an_walls_missing_pset a)
   ++ [pdf_output file_path],
   file_path).

(** Lines 264-265: the report is generated when the button is clicked, under
    the default path. *)
Definition download_clicked (clicked : bool) (context : gmap string string)
    (model : Model) (a : Analysis) : option (list PdfOp * string) :=
  if clicked then Some (generate_pdf context model a "IFC_Analysis_Report.pdf")
  else None.

End Pdf.

(** The texts written by [multi_cell], in order. *)
Definition pdf_texts (ops : list PdfOp) : list string :=
  omap (fun op => match op with pdf_multi_cell _ _ txt => Some txt | _ => None end) ops.

(** How a row of the proxy table, and a row of the table of walls, read as
    entry number [i + 1] of the report. *)
Definition proxy_row_text (i : nat) (row : ProxyRow) : string :=
  (str_int (Z.of_nat i + 1) ++ ". Name: " ++ proxy_row_Name row
   ++ " | Type: " ++ proxy_row_IFC_Type row
   ++ " | GlobalId: " ++ proxy_row_GlobalId row
   ++ " | Issue: " ++ proxy_row_Issue row)%string.

Definition pset_row_text (i : nat) (row : PsetRow) : string :=
  (str_int (Z.of_nat i + 1) ++ ". Wall Name: " ++ pset_row_Wall_Name row
   ++ " | GlobalId: " ++ pset_row_GlobalId row
   ++ " | Issue: " ++ pset_row_Issue row)%string.

(** The context holds the four entries that the login block stores. *)
Definition stored_context (context : gmap string string) : Prop :=
  is_Some (context !! "name"%string) /\ complete_context context.

Definition session_stored (raw : RawSession) : Prop :=
  logged_in (initialise raw) = true ->
  stored_context (user_context (initialise raw)).

(** The three tests of [severity], each replaced by the comparison it
    decides. *)
Variant severity_case (p : Q) : SeverityLevel -> Prop :=
  | case_low : (p <= 10)%Q -> severity_case p LOW
  | case_medium : (10 < p)%Q -> (p < 20)%Q -> severity_case p MEDIUM
  | case_high : (20 <= p)%Q -> (p < 50)%Q -> severity_case p HIGH
  | case_critical : (50 <= p)%Q -> severity_case p CRITICAL.

(** ** Notions of the specification, for comparison with the script *)

(** The percentage as the specification words it: count / total * 100, and
    0 when total = 0. *)
Definition spec_pct (count total : Z) : Q :=
  if total =? 0 then 0%Q else (inject_Z count / inject_Z total * 100)%Q.

(** The identifiers of the members of the two wall collections, with
    repetitions, and the number of distinct wall elements among them. *)
Definition wall_ids (model : Model) : list string :=
  GlobalId <$> (walls model ++ standard_walls model).

Definition distinct_walls (model : Model) : nat :=
  size (list_to_set (wall_ids model) : gset string).

(** How many times the element with identifier [g] is counted in
    [total_walls]. *)
Definition wall_contribution (model : Model) (g : string) : nat :=
  length (filter (fun e => GlobalId e = g) (walls model))
  + length (filter (fun e => GlobalId e = g) (standard_walls model)).

(** The property-group attachments of an element: the property sets that
    a property relation attaches to it; none when the element has no
    readable collection of relations. *)
Definition attachment (definition : Relationship) : option PropertyDefinition :=
  match definition with
  | IfcRelDefinesByProperties (Some ps) =>
      match pd_class ps with
      | IfcPropertySet => Some ps
      | _ => None
      end
  | _ => None
  end.

Definition property_groups (e : Element) : list PropertyDefinition :=
  omap attachment (default [] (IsDefinedBy e)).

(** An element lacks the required group when none of its property-group
    attachments has exactly the required name. *)
Definition lacks_group (required : string) (e : Element) : Prop :=
  Forall (fun pg => pd_Name pg ≠ Some required) (property_groups e).

#[global] Instance lacks_group_dec (required : string) (e : Element) :
  Decision (lacks_group required e).
Proof. unfold lacks_group. apply _. Defined.

(** The display name is absent or blank. *)
Definition unnamed (e : Element) : Prop :=
  Name e = None \/ Name e = Some EmptyString.

(** ** Sample models *)

Definition by_type_of (table : list (string * list Element)) : Model :=
  fun t => default [] (snd <$> find (fun row => String.eqb (fst row) t) table).

(** One standard-case wall: the facade returns it for its own class and for
    the classes above it. *)
Definition standard_wall : Element :=
  {| GlobalId := "2O2Fr$t4X7Zf8NOew3FLOH"; Name := Some "Basic Wall";
     is_a := "IfcWallStandardCase"; IsDefinedBy := Some [] |}.

Definition one_standard_wall : Model :=
  by_type_of [("IfcProduct", [standard_wall]); ("IfcWall", [standard_wall]);
              ("IfcWallStandardCase", [standard_wall])]%string.

Definition empty_model : Model := by_type_of [].

Definition property_set (n : string) : Relationship :=
  IfcRelDefinesByProperties (Some {| pd_class := IfcPropertySet; pd_Name := Some n |}).

Definition wall_with_pset : Element :=
  {| GlobalId := "0wall_A"; Name := Some "Exterior"; is_a := "IfcWall";
     IsDefinedBy := Some [IfcRelDefinesByType; property_set "Pset_WallCommon"] |}.

Definition wall_lower_case : Element :=
  {| GlobalId := "0wall_B"; Name := Some EmptyString; is_a := "IfcWall";
     IsDefinedBy := Some [property_set "pset_wallcommon"] |}.

Definition wall_without_relations : Element :=
  {| GlobalId := "0wall_C"; Name := None; is_a := "IfcWall";
     IsDefinedBy := None |}.

Definition unnamed_proxy : Element :=
  {| GlobalId := "0proxy_A"; Name := None; is_a := "IfcBuildingElementProxy";
     IsDefinedBy := Some [] |}.

Definition three_walls : Model :=
  by_type_of
    [("IfcProduct", [wall_with_pset; wall_lower_case; wall_without_relations; unnamed_proxy]);
     ("IfcWall", [wall_with_pset; wall_lower_case; wall_without_relations]);
     ("IfcBuildingElementProxy", [unnamed_proxy])]%string.

Definition blank_wall_model : Model :=
  by_type_of [("IfcProduct", [wall_lower_case]); ("IfcWall", [wall_lower_case])]%string.

(** The invariant of the session: once logged in, the stored context is
    complete. *)
Definition session_ok (raw : RawSession) : Prop :=
  logged_in (initialise raw) = true ->
  complete_context (user_context (initialise raw)).

(** The run stopped on the login page, before the analysis page. *)
Definition stopped_at_login (o : Outcome) : Prop :=
  match o with
  | LoginStopped _ | Rerun => True
  | AnalysisShown _ | Crashed _ => False
  end.

(** The result of [classify_counts] when it did not raise. *)
Definition classify_counts_result (total n_walls n_doors n_windows n_proxies : Z)
  : option ClassificationResult :=
  match classify_counts total n_walls n_doors n_windows n_proxies with
  | Ok r => Some r
  | Raise _ => None
  end.




(** Role, domain and purpose are all chosen. *)
Definition valid_choice (w : Widgets) : Prop :=
  role w ≠ sentinel /\ domain w ≠ sentinel /\ purpose w ≠ sentinel.

(** Sample runs: a login with every field chosen, and a later run with an
    uploaded model. *)
Definition architect_login : Widgets :=
  {| name := "Ada"; role := "Architect"; domain := "Architecture";
     purpose := "Compliance"; continue_clicked := true; uploaded_file := None |}.

Definition upload_three_walls : Widgets :=
  {| name := ""; role := sentinel; domain := sentinel; purpose := sentinel;
     continue_clicked := false; uploaded_file := Some three_walls |}.

(** * Properties *)

(** ** Severity *)

Section Severity.
Local Open Scope Q_scope.

Lemma Qlt_bool_iff (x y : Q) : Qlt_bool x y = true <-> x < y.
Proof. unfold Qlt_bool, Qlt. apply Z.ltb_lt. Qed.

Lemma Qlt_bool_false_iff (x y : Q) : Qlt_bool x y = false <-> y <= x.
Proof. unfold Qlt_bool, Qle. apply Z.ltb_ge. Qed.

Lemma Qle_bool_false_iff (x y : Q) : Qle_bool x y = false <-> y < x.
Proof.
  rewrite <- Bool.not_true_iff_false, Qle_bool_iff.
  split; [apply Qnot_le_lt | apply Qlt_not_le].
Qed.

Lemma severity_cases (p : Q) : severity_case p (severity p).
Proof.
  unfold severity.
  destruct (Qle_bool p 10) eqn:H10.
  { apply case_low. by apply Qle_bool_iff. }
  apply Qle_bool_false_iff in H10.
  destruct (Qlt_bool p 20) eqn:H20.
  { apply case_medium; [done | by apply Qlt_bool_iff]. }
  apply Qlt_bool_false_iff in H20.
  destruct (Qlt_bool p 50) eqn:H50.
  { apply case_high; [done | by apply Qlt_bool_iff]. }
  apply case_critical. by apply Qlt_bool_false_iff.
Qed.

(** C1.  The severity evaluator maps [proxy_pct] to exactly one level by
    the fixed thresholds: LOW exactly when [proxy_pct <= 10], MEDIUM
    exactly when [10 < proxy_pct < 20], HIGH exactly when
    [20 <= proxy_pct < 50], CRITICAL exactly when [proxy_pct >= 50]; the
    boundary values 10, 20 and 50 give LOW, HIGH and CRITICAL. *)
Theorem severity_thresholds (p : Q) :
  (severity p = LOW <-> p <= 10) /\
  (severity p = MEDIUM <-> 10 < p /\ p < 20) /\
  (severity p = HIGH <-> 20 <= p /\ p < 50) /\
  (severity p = CRITICAL <-> 50 <= p) /\
  severity 10 = LOW /\ severity 20 = HIGH /\ severity 50 = CRITICAL.
Proof.
  pose proof (severity_cases p) as Hc.
  split; [| split; [| split; [| split; [| by vm_compute]]]];
    (split;
     [ intros Hs; rewrite Hs in Hc; inversion Hc; auto
     | intros Hp; destruct Hc; first [reflexivity | exfalso; lra] ]).
Qed.

(** C8.  With the order LOW < MEDIUM < HIGH < CRITICAL the severity is a
    non-decreasing function of [proxy_pct]. *)
Theorem severity_monotone (x y : Q) :
  x <= y -> severity_le (severity x) (severity y).
Proof.
  intros Hxy. unfold severity_le.
  destruct (severity_cases x), (severity_cases y); simpl; try lia; exfalso; lra.
Qed.

Lemma severity_monotone_witness :
  15 <= 20 /\ severity_le (severity 15) (severity 20).
Proof.
  split; [| apply (severity_monotone 15 20)]; unfold Qle; simpl; lia.
Defined.

End Severity.

(** ** Element classification *)

Section Classifier.

Lemma percentage_ok (count total : Z) :
  percentage count total = Ok (spec_pct count total).
Proof.
  unfold percentage, spec_pct, int_truthy, truediv.
  destruct (total =? 0); reflexivity.
Qed.

Lemma classify_counts_ok (total n_walls n_doors n_windows n_proxies : Z) :
  classify_counts total n_walls n_doors n_windows n_proxies =
  let semantic := n_walls + n_doors + n_windows in
  let other := Z.max (total - semantic - n_proxies) 0 in
  Ok {| cr_total_elements := total; cr_total_walls := n_walls;
        cr_doors := n_doors; cr_windows := n_windows;
        semantic_elements := semantic; proxy_elements := n_proxies;
        other_semantic := other;
        semantic_pct := spec_pct semantic total;
        proxy_pct := spec_pct n_proxies total;
        other_pct := spec_pct other total |}.
Proof.
  unfold classify_counts. rewrite !percentage_ok. reflexivity.
Qed.

(** C2.  For all counts the classifier returns a result (no exception)
    with semantic = walls + doors + windows,
    other = max(total - semantic - proxy, 0), and each percentage equal to
    count / total * 100, which is 0 when total = 0. *)
Theorem classify_counts_spec (total n_walls n_doors n_windows n_proxies : Z) :
  exists r : ClassificationResult,
    classify_counts total n_walls n_doors n_windows n_proxies = Ok r /\
    semantic_elements r = n_walls + n_doors + n_windows /\
    proxy_elements r = n_proxies /\
    other_semantic r = Z.max (total - semantic_elements r - proxy_elements r) 0 /\
    semantic_pct r = spec_pct (semantic_elements r) total /\
    proxy_pct r = spec_pct (proxy_elements r) total /\
    other_pct r = spec_pct (other_semantic r) total /\
    spec_pct (semantic_elements r) 0 = 0%Q /\
    spec_pct (proxy_elements r) 0 = 0%Q /\
    spec_pct (other_semantic r) 0 = 0%Q.
Proof.
  eexists. split; [apply classify_counts_ok |]. cbn. repeat split.
Qed.



Example five_percent_is_low :
  (severity <$> (proxy_pct <$> classify_counts_result 100 40 10 10 5)) = Some LOW /\
  (other_semantic <$> classify_counts_result 100 40 10 10 5) = Some 35.
Proof. repeat split; vm_compute; reflexivity. Qed.

Example fifteen_percent_is_medium :
  (severity <$> (proxy_pct <$> classify_counts_result 100 30 10 10 15)) = Some MEDIUM.
Proof. vm_compute. reflexivity. Qed.

Example sixty_percent_is_critical :
  (severity <$> (proxy_pct <$> classify_counts_result 50 10 0 0 30)) = Some CRITICAL.
Proof. vm_compute. reflexivity. Qed.

Lemma analyze_ok (model : Model) :
  exists c : ClassificationResult,
    classify model = Ok c /\
    analyze model =
    Ok {| an_classification := c;
          an_severity := severity (proxy_pct c);
          an_proxy_data := proxy_data model;
          an_walls_missing_pset := walls_missing_pset model;
          an_missing_pset_count := missing_pset_count model;
          an_pset_data := pset_data model |}.
Proof.
  unfold analyze, classify. rewrite classify_counts_ok. cbn. eauto.
Qed.

(** C7.  On a model without elements the analysis returns a result: the
    divisions, which would raise ZeroDivisionError, are not reached, the
    three percentages are 0 and the severity is LOW. *)
Theorem empty_model_is_low (model : Model) :
  total_elements model = 0 ->
  exists a : Analysis,
    analyze model = Ok a /\
    semantic_pct (an_classification a) = 0%Q /\
    proxy_pct (an_classification a) = 0%Q /\
    other_pct (an_classification a) = 0%Q /\
    an_severity a = LOW /\
    forall count : Z,
      truediv count (total_elements model) = Raise ZeroDivisionError /\
      percentage count (total_elements model) = Ok 0%Q.
Proof.
  intros Htotal. unfold analyze, classify.
  rewrite classify_counts_ok, Htotal. cbn.
  eexists. split; [reflexivity |]. cbn. repeat split.
Qed.

Lemma empty_model_is_low_witness :
  total_elements empty_model = 0 /\
  exists a : Analysis, analyze empty_model = Ok a /\ an_severity a = LOW.
Proof.
  split; [reflexivity |].
  destruct (empty_model_is_low empty_model eq_refl) as (a & Ha & _ & _ & _ & Hs & _).
  exists a. split; assumption.
Defined.

End Classifier.

(** ** Counting the walls *)

Section Walls.

Lemma size_list_to_set_le (l : list string) :
  (size (list_to_set l : gset string) <= length l)%nat.
Proof.
  induction l as [| x l IH]; cbn.
  - by rewrite size_empty.
  - destruct (decide (x ∈ (list_to_set l : gset string))) as [Hin | Hout].
    + assert ({[x]} ∪ list_to_set l = (list_to_set l : gset string)) as ->
        by (by apply subseteq_union_1_L, singleton_subseteq_l).
      lia.
    + rewrite size_union by set_solver. rewrite size_singleton. lia.
Qed.

Lemma size_list_to_set_NoDup (l : list string) :
  size (list_to_set l : gset string) = length l -> NoDup l.
Proof.
  induction l as [| x l IH]; cbn; intros Hsize.
  - constructor.
  - destruct (decide (x ∈ (list_to_set l : gset string))) as [Hin | Hout].
    + assert ({[x]} ∪ list_to_set l = (list_to_set l : gset string)) as Hsame
        by (by apply subseteq_union_1_L, singleton_subseteq_l).
      rewrite Hsame in Hsize.
      pose proof (size_list_to_set_le l). lia.
    + rewrite size_union, size_singleton in Hsize by set_solver.
      constructor; [by rewrite <- (elem_of_list_to_set (C := gset string)) | apply IH; lia].
Qed.

Lemma total_walls_length (model : Model) :
  total_walls model = Z.of_nat (length (wall_ids model)).
Proof.
  unfold total_walls, wall_ids, len.
  rewrite length_fmap, length_app. lia.
Qed.

Lemma wall_contribution_count (model : Model) (g : string) :
  wall_contribution model g = length (filter (fun i => i = g) (wall_ids model)).
Proof.
  unfold wall_contribution, wall_ids.
  rewrite fmap_app, filter_app, length_app.
  f_equal.
  - induction (walls model) as [| e l IH]; [done |].
    rewrite fmap_cons, !filter_cons. destruct (decide (GlobalId e = g)); cbn; by rewrite IH.
  - induction (standard_walls model) as [| e l IH]; [done |].
    rewrite fmap_cons, !filter_cons. destruct (decide (GlobalId e = g)); cbn; by rewrite IH.
Qed.

Lemma NoDup_filter_eq_le (l : list string) (g : string) :
  NoDup l -> (length (filter (fun i => i = g) l) <= 1)%nat.
Proof.
  induction 1 as [| x l Hx Hl IH]; [cbn; lia |].
  rewrite filter_cons. destruct (decide (x = g)) as [-> | Hne]; [| exact IH].
  cbn. destruct (filter (fun i => i = g) l) as [| y k] eqn:Hf; [cbn; lia |].
  exfalso. apply Hx.
  assert (y ∈ filter (fun i => i = g) l) as Hy by (rewrite Hf; left).
  apply list_elem_of_filter in Hy as [-> Hy]. exact Hy.
Qed.

(** The walls count as the script computes it: the number of members
    of the two wall collections taken together, without deduplication; it
    is never below the number of distinct wall identifiers, and it equals
    that number exactly when no identifier occurs twice across the two
    collections, in which case every wall contributes at most once. *)
Theorem total_walls_counts_occurrences (model : Model) :
  total_walls model = Z.of_nat (length (wall_ids model)) /\
  Z.of_nat (distinct_walls model) <= total_walls model /\
  (total_walls model = Z.of_nat (distinct_walls model) <-> NoDup (wall_ids model)) /\
  (NoDup (wall_ids model) -> forall g : string, (wall_contribution model g <= 1)%nat).
Proof.
  rewrite total_walls_length. unfold distinct_walls.
  pose proof (size_list_to_set_le (wall_ids model)) as Hle.
  split; [reflexivity |]. split; [lia |]. split.
  - split.
    + intros Heq. apply size_list_to_set_NoDup. lia.
    + intros Hnd. by rewrite size_list_to_set.
  - intros Hnd g. rewrite wall_contribution_count. by apply NoDup_filter_eq_le.
Qed.

(** C3 fails on the script: a model whose only wall is of the standard
    case is returned by both wall queries, and the one wall is counted
    twice. *)
Lemma wall_counted_twice :
  walls one_standard_wall = [standard_wall] /\
  standard_walls one_standard_wall = [standard_wall] /\
  distinct_walls one_standard_wall = 1%nat /\
  wall_contribution one_standard_wall (GlobalId standard_wall) = 2%nat /\
  total_walls one_standard_wall = 2.
Proof. repeat split; vm_compute; reflexivity. Qed.

End Walls.

(** ** Walls missing Pset_WallCommon *)

Section Completeness.

Lemma fold_left_snoc {A B : Type} (f : A -> B) (l : list A) (acc : list B) :
  fold_left (fun rows x => rows ++ [f x]) l acc = acc ++ (f <$> l).
Proof.
  revert acc. induction l as [| x l IH]; intros acc; cbn.
  - by rewrite app_nil_r.
  - by rewrite IH, <- app_assoc.
Qed.

(** The flag only ever goes from false to true. *)
Lemma definition_step_true (definitions : list Relationship) :
  fold_left definition_step definitions true = true.
Proof.
  induction definitions as [| d l IH]; [done |].
  cbn. replace (definition_step true d) with true; [exact IH |].
  destruct d as [[[[] ?] |] |]; cbn; by try destruct (py_eq_str _ _).
Qed.

Lemma py_eq_str_iff (a : option string) (b : string) :
  py_eq_str a b = true <-> a = Some b.
Proof.
  destruct a as [s |]; cbn; [| done].
  rewrite String.eqb_eq. split; congruence.
Qed.

Lemma inner_loop_false (definitions : list Relationship) :
  fold_left definition_step definitions false = false <->
  Forall (fun pg => pd_Name pg ≠ Some "Pset_WallCommon") (omap attachment definitions).
Proof.
  induction definitions as [| d l IH]; [by cbn |].
  cbn [fold_left omap list_omap].
  destruct d as [[[[] n] |] |]; cbn [definition_step attachment pd_class pd_Name];
    try exact IH.
  rewrite Forall_cons. cbn [pd_Name].
  destruct (py_eq_str n "Pset_WallCommon") eqn:Hn.
  - rewrite definition_step_true. apply py_eq_str_iff in Hn.
    split; [done | tauto].
  - rewrite IH.
    split; [| tauto]. intros Hall. split; [| done].
    intros Heq. apply py_eq_str_iff in Heq. congruence.
Qed.

Lemma has_pset_false (wall : Element) :
  has_pset wall = false <-> lacks_group "Pset_WallCommon" wall.
Proof.
  unfold has_pset, lacks_group, property_groups.
  destruct (IsDefinedBy wall) as [definitions |]; cbn.
  - apply inner_loop_false.
  - split; [constructor | done].
Qed.

Lemma outer_loop (l acc : list Element) :
  fold_left wall_step l acc = acc ++ filter (lacks_group "Pset_WallCommon") l.
Proof.
  revert acc. induction l as [| w l IH]; intros acc; cbn [fold_left].
  - by rewrite app_nil_r.
  - rewrite IH, filter_cons. unfold wall_step.
    destruct (has_pset w) eqn:Hw; cbn.
    + rewrite decide_False; [done |].
      rewrite <- has_pset_false. congruence.
    + rewrite decide_True by (by apply has_pset_false).
      by rewrite <- app_assoc.
Qed.

Lemma walls_missing_pset_filter (model : Model) :
  walls_missing_pset model = filter (lacks_group "Pset_WallCommon") (walls_objects model).
Proof. unfold walls_missing_pset. by rewrite outer_loop. Qed.

(** C5.  The walls reported missing are, in order, the walls none of whose
    property-group attachments is named exactly "Pset_WallCommon"; a wall
    without attachments is reported, and a name that differs in case only
    does not count. *)
Theorem missing_iff_no_exact_name (model : Model) :
  walls_missing_pset model = filter (lacks_group "Pset_WallCommon") (walls_objects model) /\
  (forall wall : Element,
     wall ∈ walls_missing_pset model <->
     wall ∈ walls_objects model /\
     forall pg, pg ∈ property_groups wall -> pd_Name pg ≠ Some "Pset_WallCommon") /\
  (forall wall : Element,
     wall ∈ walls_objects model -> property_groups wall = [] ->
     wall ∈ walls_missing_pset model) /\
  (forall wall : Element,
     wall ∈ walls_objects model ->
     (forall pg, pg ∈ property_groups wall -> pd_Name pg = Some "pset_wallcommon") ->
     wall ∈ walls_missing_pset model) /\
  has_pset wall_lower_case = false /\ has_pset wall_with_pset = true.
Proof.
  rewrite walls_missing_pset_filter.
  split; [reflexivity |]. split; [| split; [| split; [| by vm_compute]]].
  - intros wall. rewrite list_elem_of_filter. unfold lacks_group.
    rewrite Forall_forall. tauto.
  - intros wall Hin Hnil. apply list_elem_of_filter. split; [| done].
    unfold lacks_group. rewrite Hnil. constructor.
  - intros wall Hin Hnames. apply list_elem_of_filter. split; [| done].
    apply Forall_forall. intros pg Hpg. rewrite (Hnames pg Hpg). discriminate.
Qed.

(** The check on instances agrees with the check on elements wherever the
    collection is absent or can be iterated, and raises otherwise. *)
Lemma raw_has_pset_readable (wall : Raw.EntityInstance) :
  match Raw.readable wall with
  | Some e => Raw.has_pset wall = Ok (has_pset e)
  | None => Raw.has_pset wall = Raise TypeError
  end.
Proof. unfold Raw.readable, Raw.has_pset. by destruct (Raw.IsDefinedBy wall). Qed.









(** Three walls, one with the property set: the two others are reported,
    by identifier, in the order of the model. *)
Example two_of_three_walls_missing :
  missing_pset_count three_walls = 2 /\
  GlobalId <$> walls_missing_pset three_walls = ["0wall_B"; "0wall_C"].
Proof. split; vm_compute; reflexivity. Qed.

End Completeness.

(** ** Listings *)

Section Listings.

Lemma unnamed_name (e : Element) : unnamed e -> name_or_unnamed e = "Unnamed".
Proof. unfold name_or_unnamed. by intros [-> | ->]. Qed.

Lemma proxy_data_rows (model : Model) :
  proxies model ≠ [] -> proxy_data model = Some (proxy_row <$> proxies model).
Proof.
  unfold proxy_data. intros Hne.
  destruct (proxies model) as [| x l] eqn:Hl; [done |].
  by rewrite fold_left_snoc.
Qed.

Lemma pset_data_rows (model : Model) :
  walls_missing_pset model ≠ [] ->
  pset_data model = Some (pset_row <$> walls_missing_pset model).
Proof.
  unfold pset_data, missing_pset_count, len. intros Hne.
  destruct (walls_missing_pset model) as [| x l] eqn:Hl; [done |].
  cbn [length]. rewrite (proj2 (Z.eqb_neq _ 0)) by lia.
  by rewrite fold_left_snoc.
Qed.

(** C9.  An element whose name is absent or empty is listed under the name
    "Unnamed", at its own position, in the proxy table and in the table of
    walls missing the property set; the analysis returns these tables and
    does not raise. *)
Theorem unnamed_elements_are_listed (model : Model) (e : Element) (i : nat) :
  unnamed e ->
  name_or_unnamed e = "Unnamed" /\
  (proxies model !! i = Some e ->
   exists rows : list ProxyRow,
     proxy_data model = Some rows /\
     rows !! i = Some {| proxy_row_Name := "Unnamed";
                         proxy_row_GlobalId := GlobalId e;
                         proxy_row_IFC_Type := is_a e;
                         proxy_row_Issue := "Semantic meaning lost (generic proxy)" |}) /\
  (walls_missing_pset model !! i = Some e ->
   exists rows : list PsetRow,
     pset_data model = Some rows /\
     rows !! i = Some {| pset_row_Wall_Name := "Unnamed";
                         pset_row_GlobalId := GlobalId e;
                         pset_row_Issue := "Pset_WallCommon missing" |}) /\
  exists a : Analysis,
    analyze model = Ok a /\
    an_proxy_data a = proxy_data model /\
    an_pset_data a = pset_data model.
Proof.
  intros Hname. pose proof (unnamed_name e Hname) as Hu.
  split; [exact Hu |]. split; [| split].
  - intros Hi. exists (proxy_row <$> proxies model). split.
    + apply proxy_data_rows. intros Hnil. by rewrite Hnil in Hi.
    + rewrite list_lookup_fmap, Hi. cbn. unfold proxy_row. by rewrite Hu.
  - intros Hi. exists (pset_row <$> walls_missing_pset model). split.
    + apply pset_data_rows. intros Hnil. by rewrite Hnil in Hi.
    + rewrite list_lookup_fmap, Hi. cbn. unfold pset_row. by rewrite Hu.
  - destruct (analyze_ok model) as (c & _ & Ha).
    eexists. split; [exact Ha |]. by cbn.
Qed.

(** Only the empty string is blank to the script: a name made of spaces
    is true in a condition and is listed as it is. *)
Example spaces_are_a_name :
  name_or_unnamed {| GlobalId := "0wall_D"; Name := Some "  "; is_a := "IfcWall";
                     IsDefinedBy := None |} = "  ".
Proof. reflexivity. Qed.

Lemma unnamed_elements_are_listed_witness :
  (unnamed unnamed_proxy /\ proxies three_walls !! 0%nat = Some unnamed_proxy) /\
  exists rows : list ProxyRow,
    proxy_data three_walls = Some rows /\
    rows !! 0%nat = Some {| proxy_row_Name := "Unnamed";
                            proxy_row_GlobalId := "0proxy_A";
                            proxy_row_IFC_Type := "IfcBuildingElementProxy";
                            proxy_row_Issue := "Semantic meaning lost (generic proxy)" |}.
Proof.
  split; [split; [by left | reflexivity] |].
  exact (proj1 (proj2 (unnamed_elements_are_listed three_walls unnamed_proxy 0
                         (or_introl eq_refl))) eq_refl).
Defined.

End Listings.

(** ** The session gate *)

Section Session.

Lemma eqb_sentinel_false (x : string) : String.eqb x sentinel = false <-> x ≠ sentinel.
Proof. apply String.eqb_neq. Qed.

Lemma analysis_page_complete (context : gmap string string) (upload : option Model) :
  complete_context context ->
  exists page : Page,
    analysis_page context upload = Ok page /\
    page_context page = context /\
    context !! "role" = Some (page_role page) /\
    context !! "domain" = Some (page_domain page) /\
    context !! "purpose" = Some (page_purpose page).
Proof.
  intros (r & d & p & Hr & _ & Hd & _ & Hp & _).
  unfold analysis_page, dict_get. rewrite Hr, Hd, Hp. cbn.
  destruct upload as [model |].
  - destruct (analyze_ok model) as (c & _ & ->). cbn. eexists. by repeat split.
  - eexists. by repeat split.
Qed.

Lemma initialise_stored (s : SessionState) : initialise (stored s) = s.
Proof. by destruct s. Qed.

(** What one run does to a session in which nobody is logged in. *)
Lemma run_logged_out (raw : RawSession) (w : Widgets) :
  logged_in (initialise raw) = false ->
  stopped_at_login (snd (run raw w)) /\
  (logged_in (initialise (fst (run raw w))) = true ->
   role w ≠ sentinel /\ domain w ≠ sentinel /\ purpose w ≠ sentinel /\
   user_context (initialise (fst (run raw w))) =
   <["purpose" := purpose w]> (<["domain" := domain w]>
     (<["role" := role w]> (<["name" := name w]> ∅)))).
Proof.
  intros Hout. unfold run. rewrite Hout. cbn [negb].
  destruct (continue_clicked w);
    [| cbn [fst snd]; rewrite initialise_stored; split; [done | congruence]].
  destruct (String.eqb (role w) sentinel) eqn:Hr;
    [cbn [orb fst snd]; rewrite initialise_stored; split; [done | congruence] |].
  destruct (String.eqb (domain w) sentinel) eqn:Hd;
    [cbn [orb fst snd]; rewrite initialise_stored; split; [done | congruence] |].
  destruct (String.eqb (purpose w) sentinel) eqn:Hp;
    [cbn [orb fst snd]; rewrite initialise_stored; split; [done | congruence] |].
  apply eqb_sentinel_false in Hr, Hd, Hp.
  cbn [orb fst snd]. rewrite initialise_stored. by repeat split.
Qed.

(** A run in a logged-in session leaves the session as it is. *)
Lemma run_logged_in (raw : RawSession) (w : Widgets) :
  logged_in (initialise raw) = true ->
  initialise (fst (run raw w)) = initialise raw.
Proof.
  intros Hin. unfold run. rewrite Hin. cbn [negb].
  destruct (analysis_page _ _); cbn [fst]; by rewrite initialise_stored.
Qed.

Lemma run_preserves_ok (raw : RawSession) (w : Widgets) :
  session_ok raw -> session_ok (fst (run raw w)).
Proof.
  intros Hok. unfold session_ok.
  destruct (logged_in (initialise raw)) eqn:Hl.
  - rewrite (run_logged_in raw w Hl). exact Hok.
  - intros Hnow.
    destruct (run_logged_out raw w Hl) as (_ & Hflip).
    destruct (Hflip Hnow) as (Hr & Hd & Hp & ->).
    exists (role w), (domain w), (purpose w).
    by repeat split; simplify_map_eq.
Qed.

Lemma fold_run_ok (ws : list Widgets) (raw : RawSession) :
  session_ok raw ->
  session_ok (fold_left (fun raw w => fst (run raw w)) ws raw).
Proof.
  revert raw. induction ws as [| w ws IH]; intros raw Hok; [exact Hok |].
  cbn [fold_left]. apply IH. by apply run_preserves_ok.
Qed.

Lemma session_after_ok (ws : list Widgets) : session_ok (session_after ws).
Proof. apply fold_run_ok. unfold session_ok. cbn. congruence. Qed.

(** C10.  In every session reachable from a new one: a logged-in session
    stores a complete context; a run in a logged-out session stops on the
    login page, and logs in only when role, domain and purpose all differ
    from the sentinel, storing them with the name as typed; an analysis
    page is only ever shown for a complete context, whose three fields it
    displays; and no run ends in an exception. *)
Theorem analysis_needs_complete_context (ws : list Widgets) (w : Widgets) :
  let raw := session_after ws in
  let s := initialise raw in
  let s' := initialise (fst (run raw w)) in
  (logged_in s = true -> complete_context (user_context s)) /\
  (logged_in s = false -> stopped_at_login (snd (run raw w))) /\
  (logged_in s = false -> logged_in s' = true ->
   role w ≠ sentinel /\ domain w ≠ sentinel /\ purpose w ≠ sentinel /\
   user_context s' !! "role" = Some (role w) /\
   user_context s' !! "domain" = Some (domain w) /\
   user_context s' !! "purpose" = Some (purpose w) /\
   user_context s' !! "name" = Some (name w)) /\
  (forall page : Page,
     snd (run raw w) = AnalysisShown page ->
     logged_in s = true /\
     page_context page = user_context s /\
     complete_context (page_context page) /\
     page_role page ≠ sentinel /\ page_domain page ≠ sentinel /\
     page_purpose page ≠ sentinel) /\
  (forall e : PyExc, snd (run raw w) ≠ Crashed e).
Proof.
  intros raw s s'. subst s s'.
  pose proof (session_after_ok ws) as Hok. fold raw in Hok.
  split; [exact Hok |]. split; [apply run_logged_out |]. split; [| split].
  - intros Hout Hnow.
    destruct (run_logged_out raw w Hout) as (_ & Hflip).
    destruct (Hflip Hnow) as (Hr & Hd & Hp & ->).
    by repeat split; simplify_map_eq.
  - intros page Hshown.
    destruct (logged_in (initialise raw)) eqn:Hl.
    + specialize (Hok Hl).
      destruct (analysis_page_complete _ (uploaded_file w) Hok)
        as (page' & Hpage & Hctx & Hr & Hd & Hp).
      unfold run in Hshown. rewrite Hl, Hpage in Hshown. cbn in Hshown.
      injection Hshown as <-.
      destruct Hok as (r & d & p & Hr' & ? & Hd' & ? & Hp' & ?).
      rewrite Hctx. split; [done |]. split; [done |].
      split; [by exists r, d, p |].
      repeat split; congruence.
    + pose proof (proj1 (run_logged_out raw w Hl)) as Hstop.
      by rewrite Hshown in Hstop.
  - intros e Hcrash.
    destruct (logged_in (initialise raw)) eqn:Hl.
    + destruct (analysis_page_complete _ (uploaded_file w) (Hok Hl)) as (page' & Hpage & _).
      unfold run in Hcrash. rewrite Hl, Hpage in Hcrash. by cbn in Hcrash.
    + pose proof (proj1 (run_logged_out raw w Hl)) as Hstop.
      by rewrite Hcrash in Hstop.
Qed.

End Session.

(** * Further properties of the script *)

(** ** Bounds on the counts and the percentages *)

Section Percentages.

Lemma spec_pct_pos (count : Z) (t : positive) :
  spec_pct count (Z.pos t) = (inject_Z count / inject_Z (Z.pos t) * 100)%Q.
Proof. reflexivity. Qed.

(** Comparing a percentage with an integer bound is comparing integers. *)
Lemma pct_le_iff (count total k : Z) :
  0 < total -> (spec_pct count total <= inject_Z k)%Q <-> 100 * count <= k * total.
Proof.
  destruct total as [| t | t]; try lia. intros _.
  rewrite spec_pct_pos. unfold Qle. cbn. lia.
Qed.

Lemma pct_ge_iff (count total k : Z) :
  0 < total -> (inject_Z k <= spec_pct count total)%Q <-> k * total <= 100 * count.
Proof.
  destruct total as [| t | t]; try lia. intros _.
  rewrite spec_pct_pos. unfold Qle. cbn. lia.
Qed.

Lemma spec_pct_nonneg (count total : Z) :
  0 <= count -> 0 <= total -> (0 <= spec_pct count total)%Q.
Proof.
  intros Hc Ht. destruct (Z.eq_dec total 0) as [-> | Hne]; [done |].
  apply (pct_ge_iff count total 0); lia.
Qed.

(** For every model the classifier returns a result whose counts and
    percentages are never negative and whose other-percentage is at most
    100; the proxy percentage is at most 100 as soon as the proxies do not
    outnumber the elements. *)
Theorem classification_bounds (model : Model) :
  exists c : ClassificationResult,
    classify model = Ok c /\
    0 <= semantic_elements c /\ 0 <= proxy_elements c /\ 0 <= other_semantic c /\
    other_semantic c <= cr_total_elements c /\
    (0 <= semantic_pct c)%Q /\ (0 <= proxy_pct c)%Q /\
    (0 <= other_pct c)%Q /\ (other_pct c <= 100)%Q /\
    (proxy_elements c <= cr_total_elements c -> (proxy_pct c <= 100)%Q).
Proof.
  unfold classify. eexists. split; [apply classify_counts_ok |].
  unfold total_elements, total_walls, len. cbn.
  set (t := Z.of_nat (length (all_elements model))).
  set (sem := _ + _ + Z.of_nat (length (windows model))).
  set (px := Z.of_nat (length (proxies model))).
  assert (0 <= t /\ 0 <= sem /\ 0 <= px) as (Ht & Hs & Hp) by (subst t sem px; lia).
  assert (forall count, 0 <= count -> count <= t -> (spec_pct count t <= 100)%Q) as Hle.
  { intros count H0 Hct. destruct (Z.eq_dec t 0) as [Hz | Hne].
    - rewrite Hz. done.
    - apply (pct_le_iff count t 100); lia. }
  repeat split; try lia; try (apply spec_pct_nonneg; lia).
  - apply Hle; lia.
  - intros Hpt. apply Hle; lia.
Qed.

(** The counts shown in the classification table are never negative; they
    add up to at least the number of elements, and to exactly that number
    when the semantic and proxy elements do not exceed it. *)
Theorem df_elements_counts (model : Model) :
  exists c : ClassificationResult,
    classify model = Ok c /\
    Forall (fun row => 0 <= snd row) (df_elements model c) /\
    total_elements model <= foldr Z.add 0 (snd <$> df_elements model c) /\
    (foldr Z.add 0 (snd <$> df_elements model c) = total_elements model <->
     semantic_elements c + proxy_elements c <= total_elements model).
Proof.
  unfold classify. eexists. split; [apply classify_counts_ok |].
  unfold df_elements, total_elements, total_walls, len. cbn.
  split; [repeat constructor; cbn; lia |]. lia.
Qed.

End Percentages.

(** ** The two listings and their tables *)

Section Tables.

Lemma name_or_unnamed_not_empty (e : Element) : name_or_unnamed e ≠ EmptyString.
Proof.
  unfold name_or_unnamed. destruct (Name e) as [[| a s] |]; cbn; discriminate.
Qed.

Lemma filter_split_length {A : Type} (f : A -> bool) (l : list A) :
  (length (filter (fun x => f x = false) l) + length (filter (fun x => f x = true) l)
   = length l)%nat.
Proof.
  induction l as [| x l IH]; [done |].
  rewrite !filter_cons. destruct (f x); cbn.
  - rewrite decide_False, decide_True by done. cbn. lia.
  - rewrite decide_True, decide_False by done. cbn. lia.
Qed.

Lemma walls_missing_pset_flag (model : Model) :
  walls_missing_pset model = filter (fun w => has_pset w = false) (walls model).
Proof.
  rewrite walls_missing_pset_filter. unfold walls_objects, walls.
  apply list_filter_iff. intros w. symmetry. apply has_pset_false.
Qed.

(** The walls reported are a sub-list of the collection of class IfcWall,
    in its order, so that a wall that only the standard-case collection
    holds is counted but never checked; their number and the number of
    walls that carry the property set add up to the size of the
    collection; and the table of missing walls is left out exactly when
    every wall carries the property set. *)
Theorem missing_walls_count (model : Model) :
  walls_missing_pset model `sublist_of` walls model /\
  0 <= missing_pset_count model <= len (walls model) /\
  len (walls model) <= total_walls model /\
  missing_pset_count model + len (filter (fun w => has_pset w = true) (walls model))
  = len (walls model) /\
  (missing_pset_count model = 0 <-> Forall (fun w => has_pset w = true) (walls model)) /\
  (pset_data model = None <-> missing_pset_count model = 0).
Proof.
  pose proof (filter_split_length has_pset (walls model)) as Hsplit.
  unfold missing_pset_count, total_walls, len. rewrite walls_missing_pset_flag.
  split; [apply sublist_filter |].
  split; [lia |]. split; [lia |]. split; [lia |]. split.
  - split.
    + intros H0. apply Forall_forall. intros w Hw.
      destruct (has_pset w) eqn:Hp; [done |].
      assert (w ∈ filter (fun w => has_pset w = false) (walls model)) as Hin
        by (by apply list_elem_of_filter).
      destruct (filter _ (walls model)); [by apply not_elem_of_nil in Hin | cbn in H0; lia].
    + intros Hall.
      replace (filter (fun w => has_pset w = false) (walls model)) with (@nil Element);
        [done |].
      clear Hsplit. symmetry.
      induction Hall as [| w l Hw Hl IH]; [done |].
      by rewrite filter_cons, decide_False by congruence.
  - unfold pset_data, missing_pset_count, len. rewrite walls_missing_pset_flag.
    destruct (Z.of_nat _ =? 0) eqn:Hz.
    + apply Z.eqb_eq in Hz. done.
    + apply Z.eqb_neq in Hz. split; [discriminate | done].
Qed.

(** The proxy table is left out exactly when the model has no proxy;
    otherwise it has one row per proxy, in the order of the model, with the
    identifier and the class of the proxy, a name that is never empty and
    the same issue on every row. *)
Theorem proxy_table_shape (model : Model) :
  (proxy_data model = None <-> proxies model = []) /\
  forall rows : list ProxyRow,
    proxy_data model = Some rows ->
    length rows = length (proxies model) /\
    proxy_row_GlobalId <$> rows = GlobalId <$> proxies model /\
    proxy_row_IFC_Type <$> rows = is_a <$> proxies model /\
    Forall (fun row => proxy_row_Name row ≠ EmptyString /\
                       proxy_row_Issue row = "Semantic meaning lost (generic proxy)") rows.
Proof.
  split.
  - unfold proxy_data. destruct (proxies model); split; done.
  - intros rows Hrows.
    destruct (decide (proxies model = [])) as [Hnil | Hne].
    { unfold proxy_data in Hrows. by rewrite Hnil in Hrows. }
    rewrite (proxy_data_rows model Hne) in Hrows. injection Hrows as <-.
    rewrite length_fmap, <- !list_fmap_compose. repeat split.
    apply Forall_fmap, Forall_true. intros e. cbn.
    split; [apply name_or_unnamed_not_empty | done].
Qed.

(** The table of walls is left out exactly when no wall is reported
    missing; otherwise it has one row per wall reported, in the same order,
    with its identifier and a name that is never empty. *)
Theorem pset_table_shape (model : Model) :
  (pset_data model = None <-> walls_missing_pset model = []) /\
  forall rows : list PsetRow,
    pset_data model = Some rows ->
    Z.of_nat (length rows) = missing_pset_count model /\
    0 < missing_pset_count model /\
    pset_row_GlobalId <$> rows = GlobalId <$> walls_missing_pset model /\
    Forall (fun row => pset_row_Wall_Name row ≠ EmptyString /\
                       pset_row_Issue row = "Pset_WallCommon missing") rows.
Proof.
  split.
  { destruct (decide (walls_missing_pset model = [])) as [Hnil | Hne].
    - unfold pset_data, missing_pset_count. by rewrite Hnil.
    - rewrite (pset_data_rows model Hne). split; [discriminate | done]. }
  intros rows Hrows.
  destruct (decide (walls_missing_pset model = [])) as [Hnil | Hne].
  { unfold pset_data, missing_pset_count in Hrows. by rewrite Hnil in Hrows. }
  rewrite (pset_data_rows model Hne) in Hrows. injection Hrows as <-.
  unfold missing_pset_count, len.
  rewrite length_fmap, <- !list_fmap_compose. repeat split.
  - destruct (walls_missing_pset model); [done | cbn; lia].
  - apply Forall_fmap, Forall_true. intros e. cbn.
    split; [apply name_or_unnamed_not_empty | done].
Qed.

End Tables.

(** ** The PDF report and the screen *)

Section Report.

Lemma pdf_proxy_line_row (i : nat) (proxy : Element) :
  pdf_proxy_line i proxy = pdf_multi_cell 0 8 (proxy_row_text i (proxy_row proxy)).
Proof. reflexivity. Qed.

Lemma pdf_wall_line_row (i : nat) (wall : Element) :
  pdf_wall_line i wall = pdf_multi_cell 0 8 (pset_row_text i (pset_row wall)).
Proof. reflexivity. Qed.

(** The proxy section of the report, in terms of the proxy table. *)
Lemma pdf_proxy_detail_rows (model : Model) :
  match proxy_data model with
  | None => pdf_proxy_detail (proxies model) = []
  | Some rows =>
      pdf_proxy_detail (proxies model) =
      pdf_multi_cell 0 8 "Proxy Elements Detail:"
        :: imap (fun i row => pdf_multi_cell 0 8 (proxy_row_text i row)) rows
        ++ [pdf_ln 5]
  end.
Proof.
  destruct (decide (proxies model = [])) as [Hnil | Hne].
  - unfold proxy_data. by rewrite Hnil.
  - rewrite (proxy_data_rows model Hne). rewrite imap_fmap.
    unfold pdf_proxy_detail. destruct (proxies model) as [| e l]; [done |].
    do 2 f_equal.
Qed.

(** The section of walls of the report, in terms of the table of walls. *)
Lemma pdf_missing_walls_rows (model : Model) :
  match pset_data model with
  | None => pdf_missing_walls (missing_pset_count model) (walls_missing_pset model) = []
  | Some rows =>
      pdf_missing_walls (missing_pset_count model) (walls_missing_pset model) =
      pdf_multi_cell 0 8 "Walls Missing Pset_WallCommon:"
        :: imap (fun i row => pdf_multi_cell 0 8 (pset_row_text i row)) rows
  end.
Proof.
  destruct (decide (walls_missing_pset model = [])) as [Hnil | Hne].
  - unfold pset_data, missing_pset_count. by rewrite Hnil.
  - rewrite (pset_data_rows model Hne). rewrite imap_fmap.
    unfold pdf_missing_walls, missing_pset_count, len.
    destruct (walls_missing_pset model) as [| e l]; [done |].
    cbn [length]. rewrite (proj2 (Z.ltb_lt 0 _)) by lia. done.
Qed.

(** The entry of the report for the unnamed proxy of the sample model. *)
Example unnamed_proxy_entry :
  pdf_texts (pdf_proxy_detail (proxies three_walls)) =
  ["Proxy Elements Detail:";
   "1. Name: Unnamed | Type: IfcBuildingElementProxy | GlobalId: 0proxy_A | Issue: Semantic meaning lost (generic proxy)"]%string.
Proof. vm_compute. reflexivity. Qed.

Example str_int_decimal :
  str_int 0 = "0"%string /\ str_int 7 = "7"%string /\ str_int 120 = "120"%string.
Proof. repeat split; vm_compute; reflexivity. Qed.

(** The report made by [generate_pdf] agrees with the screen.  After the
    twenty calls of its header and summary it holds the proxy section, which
    is absent exactly when the proxy table is and otherwise lists, after its
    title, one entry per row of the table in the same order, numbered from
    1, before a line break; then the section of walls, in the same relation
    to the table of walls; and last the output to the path, which the
    function returns. *)
Theorem report_lists_the_tables (format_2f : Q -> string)
    (context : gmap string string) (model : Model) (file_path : string) :
  exists a : Analysis,
    analyze model = Ok a /\
    snd (generate_pdf format_2f context model a file_path) = file_path /\
    drop 20 (fst (generate_pdf format_2f context model a file_path)) =
      match an_proxy_data a with
      | None => []
      | Some rows =>
          pdf_multi_cell 0 8 "Proxy Elements Detail:"
            :: imap (fun i row => pdf_multi_cell 0 8 (proxy_row_text i row)) rows
            ++ [pdf_ln 5]
      end
      ++ match an_pset_data a with
         | None => []
         | Some rows =>
             pdf_multi_cell 0 8 "Walls Missing Pset_WallCommon:"
               :: imap (fun i row => pdf_multi_cell 0 8 (pset_row_text i row)) rows
         end
      ++ [pdf_output file_path].
Proof.
  destruct (analyze_ok model) as (c & _ & Ha).
  eexists. split; [exact Ha |].
  unfold generate_pdf. cbn [fst snd an_classification an_severity an_proxy_data
    an_pset_data an_missing_pset_count an_walls_missing_pset].
  split; [done |].
  pose proof (pdf_proxy_detail_rows model) as Hp.
  pose proof (pdf_missing_walls_rows model) as Hw.
  change (drop 20 (pdf_header context ++ pdf_summary format_2f c (severity (proxy_pct c)) ++ ?rest))
    with rest.
  destruct (proxy_data model), (pset_data model); by rewrite Hp, Hw.
Qed.

End Report.

(** ** More on the session *)

Section Login.

Lemma sentinel_test (w : Widgets) :
  String.eqb (role w) sentinel || String.eqb (domain w) sentinel
    || String.eqb (purpose w) sentinel = false <-> valid_choice w.
Proof.
  unfold valid_choice. rewrite !orb_false_iff, !eqb_sentinel_false. tauto.
Qed.

(** A run in a session where nobody is logged in: it logs in, and asks for
    a rerun, exactly when Continue was clicked with role, domain and
    purpose all chosen; it shows the error exactly when Continue was
    clicked with a field left on the sentinel; and in every other case it
    leaves the session as it was. *)
Theorem logged_out_run (raw : RawSession) (w : Widgets) :
  logged_in (initialise raw) = false ->
  (logged_in (initialise (fst (run raw w))) = true <->
   continue_clicked w = true /\ valid_choice w) /\
  (snd (run raw w) = Rerun <-> continue_clicked w = true /\ valid_choice w) /\
  (snd (run raw w) = LoginStopped (Some "Please select all fields.") <->
   continue_clicked w = true /\ ~ valid_choice w) /\
  (snd (run raw w) = LoginStopped None <-> continue_clicked w = false) /\
  (~ (continue_clicked w = true /\ valid_choice w) ->
   initialise (fst (run raw w)) = initialise raw).
Proof.
  intros Hout. unfold run. rewrite Hout. cbn [negb].
  pose proof (sentinel_test w) as Htest.
  destruct (continue_clicked w); [destruct (_ || _ || _) |];
    cbn [fst snd]; rewrite initialise_stored; cbn [logged_in].
  - assert (~ valid_choice w) as Hbad by (intros Hv; by apply Htest in Hv).
    rewrite Hout. repeat apply conj; intros;
      first [done | tauto | intuition congruence | intuition discriminate].
  - assert (valid_choice w) as Hgood by (by apply Htest).
    repeat apply conj; intros;
      first [done | tauto | intuition congruence | intuition discriminate].
  - rewrite Hout. repeat apply conj; intros;
      first [done | tauto | intuition congruence | intuition discriminate].
Qed.

Lemma logged_out_run_witness :
  logged_in (initialise fresh_session) = false /\
  snd (run fresh_session architect_login) = Rerun.
Proof.
  split; [reflexivity |].
  apply (proj1 (proj2 (logged_out_run fresh_session architect_login eq_refl))).
  split; [reflexivity |]. by repeat split.
Defined.

Lemma fold_run_logged_in (ws : list Widgets) (raw : RawSession) :
  logged_in (initialise raw) = true ->
  initialise (fold_left (fun raw w => fst (run raw w)) ws raw) = initialise raw.
Proof.
  revert raw. induction ws as [| w ws IH]; intros raw Hin; [done |].
  cbn [fold_left]. pose proof (run_logged_in raw w Hin) as Hsame.
  rewrite IH; [exact Hsame | by rewrite Hsame].
Qed.

(** Once a session is logged in, no later run logs it out or changes the
    stored context, whatever the widgets hold. *)
Theorem login_is_permanent (ws later : list Widgets) :
  logged_in (initialise (session_after ws)) = true ->
  logged_in (initialise (session_after (ws ++ later))) = true /\
  user_context (initialise (session_after (ws ++ later)))
  = user_context (initialise (session_after ws)).
Proof.
  intros Hin. unfold session_after. rewrite fold_left_app.
  fold (session_after ws). by rewrite (fold_run_logged_in later _ Hin).
Qed.

Lemma login_is_permanent_witness :
  logged_in (initialise (session_after [architect_login])) = true /\
  user_context (initialise (session_after
    ([architect_login] ++ [upload_three_walls; architect_login])))
  = user_context (initialise (session_after [architect_login])).
Proof.
  split; [reflexivity |].
  exact (proj2 (login_is_permanent [architect_login]
                  [upload_three_walls; architect_login] eq_refl)).
Defined.

(** A successful login is followed by the analysis page: after Continue
    with role, domain and purpose chosen, the next run shows the page with
    exactly these three values, keeps the name as typed, and holds an
    analysis exactly when a file is uploaded in that run. *)
Theorem login_then_page (raw : RawSession) (w next : Widgets) :
  logged_in (initialise raw) = false ->
  continue_clicked w = true ->
  valid_choice w ->
  exists page : Page,
    snd (run (fst (run raw w)) next) = AnalysisShown page /\
    page_role page = role w /\
    page_domain page = domain w /\
    page_purpose page = purpose w /\
    page_context page !! "name" = Some (name w) /\
    match uploaded_file next with
    | None => page_analysis page = None
    | Some model => exists a : Analysis, analyze model = Ok a /\ page_analysis page = Some a
    end.
Proof.
  intros Hout Hclick Hvalid.
  unfold run at 2. rewrite Hout, Hclick. cbn [negb].
  rewrite (proj2 (sentinel_test w) Hvalid). cbn [fst].
  unfold run. rewrite initialise_stored. cbn [logged_in user_context negb].
  unfold analysis_page, dict_get. simplify_map_eq. cbn.
  destruct (uploaded_file next) as [model |].
  - destruct (analyze_ok model) as (c & _ & Ha). rewrite Ha. cbn.
    eexists. split; [reflexivity |]. cbn.
    repeat split; eauto.
  - eexists. split; [reflexivity |]. cbn.
    repeat split; done.
Qed.

Lemma login_then_page_witness :
  (logged_in (initialise fresh_session) = false /\
   continue_clicked architect_login = true /\ valid_choice architect_login) /\
  exists page : Page,
    snd (run (fst (run fresh_session architect_login)) upload_three_walls)
    = AnalysisShown page /\
    page_role page = "Architect".
Proof.
  assert (valid_choice architect_login) as Hv by (by repeat split).
  split; [by repeat split |].
  destruct (login_then_page fresh_session architect_login upload_three_walls
              eq_refl eq_refl Hv) as (page & Hpage & Hr & _).
  exists page. split; [exact Hpage | exact Hr].
Defined.

Lemma analysis_page_present (context : gmap string string) (upload : option Model)
    (r d p : string) :
  context !! "role" = Some r -> context !! "domain" = Some d ->
  context !! "purpose" = Some p ->
  exists page : Page, analysis_page context upload = Ok page.
Proof.
  intros Hr Hd Hp. unfold analysis_page, dict_get. rewrite Hr, Hd, Hp. cbn.
  destruct upload as [model |]; [| eauto].
  destruct (analyze_ok model) as (c & _ & ->). cbn. eauto.
Qed.

Ltac settle_keys :=
  unfold is_Some; repeat apply conj; intros;
  repeat match goal with
         | H : _ /\ _ |- _ => destruct H
         | H : exists _, _ |- _ => destruct H
         end;
  try discriminate; try congruence; eauto 6.

(** The analysis page indexes the context without a default.  In a session
    flagged as logged in, the run shows the page exactly when role, domain
    and purpose are all stored, and otherwise ends in KeyError for the
    first of the three that is missing; in both cases the session stays as
    it is. *)
Theorem page_needs_the_three_keys (raw : RawSession) (w : Widgets) :
  logged_in (initialise raw) = true ->
  let context := user_context (initialise raw) in
  ((exists page : Page, snd (run raw w) = AnalysisShown page) <->
   is_Some (context !! "role") /\ is_Some (context !! "domain")
   /\ is_Some (context !! "purpose")) /\
  (snd (run raw w) = Crashed (KeyError "role") <-> context !! "role" = None) /\
  (snd (run raw w) = Crashed (KeyError "domain") <->
   is_Some (context !! "role") /\ context !! "domain" = None) /\
  (snd (run raw w) = Crashed (KeyError "purpose") <->
   is_Some (context !! "role") /\ is_Some (context !! "domain")
   /\ context !! "purpose" = None) /\
  initialise (fst (run raw w)) = initialise raw.
Proof.
  intros Hin context.
  assert (snd (run raw w) =
          match analysis_page context (uploaded_file w) with
          | Ok page => AnalysisShown page
          | Raise e => Crashed e
          end) as ->.
  { unfold run. rewrite Hin. cbn [negb]. fold context.
    by destruct (analysis_page _ _). }
  rewrite (run_logged_in raw w Hin). clearbody context.
  destruct (context !! "role") as [r |] eqn:Hr;
    [destruct (context !! "domain") as [d |] eqn:Hd;
      [destruct (context !! "purpose") as [p |] eqn:Hp |] |].
  - destruct (analysis_page_present context (uploaded_file w) r d p Hr Hd Hp)
      as (page & ->).
    settle_keys.
  - unfold analysis_page, dict_get. rewrite Hr, Hd, Hp. cbn.
    settle_keys.
  - unfold analysis_page, dict_get. rewrite Hr, Hd. cbn.
    settle_keys.
  - unfold analysis_page, dict_get. rewrite Hr. cbn.
    settle_keys.
Qed.

Lemma page_needs_the_three_keys_witness :
  logged_in (initialise {| raw_logged_in := Some true; raw_user_context := None |}) = true /\
  snd (run {| raw_logged_in := Some true; raw_user_context := None |} upload_three_walls)
  = Crashed (KeyError "role").
Proof.
  split; [reflexivity |].
  apply (proj1 (proj2 (page_needs_the_three_keys
           {| raw_logged_in := Some true; raw_user_context := None |}
           upload_three_walls eq_refl))).
  reflexivity.
Defined.

Lemma run_preserves_stored (raw : RawSession) (w : Widgets) :
  session_stored raw -> session_stored (fst (run raw w)).
Proof.
  intros Hok. unfold session_stored.
  destruct (logged_in (initialise raw)) eqn:Hl.
  - rewrite (run_logged_in raw w Hl). exact Hok.
  - intros Hnow.
    destruct (run_logged_out raw w Hl) as (_ & Hflip).
    destruct (Hflip Hnow) as (Hr & Hd & Hp & ->).
    split; [by simplify_map_eq |].
    exists (role w), (domain w), (purpose w).
    by repeat split; simplify_map_eq.
Qed.

Lemma session_after_stored (ws : list Widgets) : session_stored (session_after ws).
Proof.
  unfold session_after.
  assert (session_stored fresh_session) as Hfresh
    by (unfold session_stored; cbn; congruence).
  revert Hfresh. generalize fresh_session.
  induction ws as [| w ws IH]; intros raw Hok; [exact Hok |].
  cbn [fold_left]. apply IH. by apply run_preserves_stored.
Qed.

(** In a report made from an analysis page that a session reached, the
    four lines of context never fall back on N/A: they carry the stored
    name and the role, domain and purpose that the page displays. *)
Theorem report_header_after_login (ws : list Widgets) (w : Widgets) (page : Page) :
  snd (run (session_after ws) w) = AnalysisShown page ->
  exists n : string,
    page_context page !! "name" = Some n /\
    pdf_texts (pdf_header (page_context page)) =
    ["User Name: " ++ n; "Role: " ++ page_role page;
     "Domain: " ++ page_domain page; "Purpose: " ++ page_purpose page]%string.
Proof.
  intros Hshown.
  pose proof (session_after_stored ws) as Hok.
  destruct (logged_in (initialise (session_after ws))) eqn:Hl.
  - destruct (Hok Hl) as ((n & Hn) & Hcomplete).
    destruct (analysis_page_complete _ (uploaded_file w) Hcomplete)
      as (page' & Hpage & Hctx & Hr & Hd & Hp).
    unfold run in Hshown. rewrite Hl, Hpage in Hshown. cbn in Hshown.
    injection Hshown as <-. rewrite Hctx.
    exists n. split; [exact Hn |].
    unfold pdf_header, pdf_texts, context_get. rewrite Hn, Hr, Hd, Hp. reflexivity.
  - pose proof (proj1 (run_logged_out _ w Hl)) as Hstop.
    by rewrite Hshown in Hstop.
Qed.

Lemma architect_page :
  exists page : Page,
    snd (run (session_after [architect_login]) upload_three_walls) = AnalysisShown page.
Proof. eexists. vm_compute. reflexivity. Qed.

Lemma report_header_after_login_witness :
  exists page : Page,
    snd (run (session_after [architect_login]) upload_three_walls) = AnalysisShown page /\
    exists n : string,
      page_context page !! "name" = Some n /\
      pdf_texts (pdf_header (page_context page)) =
      ["User Name: " ++ n; "Role: " ++ page_role page;
       "Domain: " ++ page_domain page; "Purpose: " ++ page_purpose page]%string.
Proof.
  destruct architect_page as (page & Hpage).
  exists page. split; [exact Hpage |].
  exact (report_header_after_login [architect_login] upload_three_walls page Hpage).
Defined.

End Login.
